(** * EBeam_LukasChrostowski_MZI_1310.py: a shallow embedding

  The program is one procedural KLayout/SiEPIC script.  It computes a few
  strings (names, file paths), compares a version, and otherwise issues a
  fixed sequence of calls into the layout library.  The embedding keeps
  that shape:

  - [PyStr], [PosixPath] and [PkgVersion] model the pieces of Python the
    script evaluates itself (the [%] operator with one [%s], [os.path],
    the release comparison of [packaging.version]);
  - [Layout] gives the data the library calls exchange and the record of
    a call ([Event]);
  - [Script] is the script, statement by statement, in a small
    state-and-exception monad whose state is the list of calls made so
    far;
  - [Props] states what the script does.

  The layout library (pya, SiEPIC, the PDK) is outside the repository.  Its
  calls are taken to return; what they return that the script looks at
  again (handles, [ly.dbu], the path given back by [export_layout], the
  count given back by [layout_check]) comes from an environment [Env]. *)

From Stdlib Require Import String Ascii List ZArith NArith QArith Bool Lia.
From Stdlib Require Import DecimalString DecimalFacts DecimalPos DecimalZ.
Import ListNotations.

Local Open Scope string_scope.
Local Open Scope Z_scope.

(* ------------------------------------------------------------------ *)
(** ** Python strings *)

Module PyStr.

(** [s[i:]] *)
Fixpoint from (i : nat) (s : string) : string :=
  match i, s with
  | O, _ => s
  | S _, EmptyString => EmptyString
  | S k, String _ r => from k r
  end.

(** [s[:i]] *)
Fixpoint upto (i : nat) (s : string) : string :=
  match i, s with
  | O, _ => EmptyString
  | S _, EmptyString => EmptyString
  | S k, String a r => String a (upto k r)
  end.

(** [s[i:i+1]], the empty string past the end. *)
Definition at_ (i : nat) (s : string) : string := upto 1 (from i s).

(** [s.rfind(c)] for a one-character [c]: the highest index, or [-1]. *)
Fixpoint rfind (c : ascii) (s : string) : Z :=
  match s with
  | EmptyString => -1
  | String a r =>
      let i := rfind c r in
      if 0 <=? i then i + 1
      else if Ascii.eqb a c then 0 else -1
  end.

(** [s.startswith(c)] and [s.endswith(c)] for a one-character [c]. *)
Definition startswith (c : ascii) (s : string) : bool :=
  match s with
  | String a _ => Ascii.eqb a c
  | EmptyString => false
  end.

Fixpoint endswith (c : ascii) (s : string) : bool :=
  match s with
  | EmptyString => false
  | String a EmptyString => Ascii.eqb a c
  | String _ r => endswith c r
  end.

(** [s.rstrip(c)] for a one-character [c]. *)
Fixpoint rstrip (c : ascii) (s : string) : string :=
  match s with
  | EmptyString => EmptyString
  | String a r =>
      match rstrip c r with
      | EmptyString => if Ascii.eqb a c then EmptyString
                       else String a EmptyString
      | r' => String a r'
      end
  end.

(** [s == c * len(s)] *)
Fixpoint all_char (c : ascii) (s : string) : bool :=
  match s with
  | EmptyString => true
  | String a r => Ascii.eqb a c && all_char c r
  end.

(** [c not in s] *)
Fixpoint lacks (c : ascii) (s : string) : bool :=
  match s with
  | EmptyString => true
  | String a r => negb (Ascii.eqb a c) && lacks c r
  end.

Definition is_empty (s : string) : bool :=
  match s with EmptyString => true | _ => false end.

(** [fmt % arg] for a string [arg] and a format whose only conversion is
    one [%s]: the text before it, the argument, the text after it.  Python
    raises [TypeError] when the format has no conversion to consume the
    argument; that is [None] here. *)
Fixpoint percent_s (fmt arg : string) : option string :=
  match fmt with
  | EmptyString => None
  | String "%" (String "s" r) => Some (arg ++ r)
  | String a r =>
      match percent_s r arg with
      | Some t => Some (String a t)
      | None => None
      end
  end.

(** [str(z)] for an integer: its decimal digits, after a minus sign when
    it is negative. *)
Definition str_of_Z (z : Z) : string :=
  NilEmpty.string_of_int (Z.to_int z).

(** [int(s)] for a string of decimal digits with an optional minus sign;
    [None] where Python raises [ValueError]. *)
Definition int_of_str (s : string) : option Z :=
  option_map Z.of_int (NilZero.int_of_string s).

Definition is_digit (a : ascii) : bool :=
  let k := nat_of_ascii a in (48 <=? k)%nat && (k <=? 57)%nat.

Fixpoint all_digits (s : string) : bool :=
  match s with
  | EmptyString => true
  | String a r => is_digit a && all_digits r
  end.

(** A numeral as [str] writes an integer that is not negative: digits
    only, at least one, and no zero in front but in ["0"] itself. *)
Definition plain_decimal (s : string) : bool :=
  all_digits s && negb (is_empty s)
  && (String.eqb s "0" || negb (startswith "0" s)).

(** A numeral as [str] writes any integer: a plain decimal, or a minus sign
    before one that is not ["0"]. *)
Definition plain_int (s : string) : bool :=
  match s with
  | String "-" r => plain_decimal r && negb (String.eqb r "0")
  | _ => plain_decimal s
  end.

End PyStr.

(* ------------------------------------------------------------------ *)
(** ** [os.path] on a POSIX system ([posixpath]) *)

Module PosixPath.
Import PyStr.

Definition sep : ascii := "/"%char.
Definition extsep : ascii := "."%char.

(** [i = p.rfind('/') + 1; return p[i:]] *)
Definition basename (p : string) : string :=
  let i := rfind sep p + 1 in
  from (Z.to_nat i) p.

(** [i = p.rfind('/') + 1; head = p[:i];
     if head and head != '/'*len(head): head = head.rstrip('/')] *)
Definition dirname (p : string) : string :=
  let i := rfind sep p + 1 in
  let head := upto (Z.to_nat i) p in
  if negb (is_empty head) && negb (all_char sep head)
  then rstrip sep head
  else head.

(** The loop of [genericpath._splitext] that skips the leading dots of the
    last component: it runs while [filenameIndex < dotIndex], [steps]
    being the distance left, and answers whether it met a character that
    is not a dot. *)
Fixpoint skip_leading_dots (p : string) (filenameIndex steps : nat) : bool :=
  match steps with
  | O => false
  | S k =>
      if negb (String.eqb (at_ filenameIndex p) (String extsep EmptyString))
      then true
      else skip_leading_dots p (S filenameIndex) k
  end.

(** [os.path.splitext] *)
Definition splitext (p : string) : string * string :=
  let sepIndex := rfind sep p in
  let dotIndex := rfind extsep p in
  if (sepIndex <? dotIndex)
     && skip_leading_dots p (Z.to_nat (sepIndex + 1))
                          (Z.to_nat (dotIndex - (sepIndex + 1)))
  then (upto (Z.to_nat dotIndex) p, from (Z.to_nat dotIndex) p)
  else (p, EmptyString).

(** One round of the loop of [os.path.join]. *)
Definition join_step (path b : string) : string :=
  if startswith sep b then b
  else if is_empty path || endswith sep path then path ++ b
  else path ++ String sep b.

(** [os.path.join(a, *p)] *)
Definition join (a : string) (p : list string) : string :=
  fold_left join_step p a.

End PosixPath.

(* ------------------------------------------------------------------ *)
(** ** [packaging.version], final releases

  A version is its release segment, the tuple of numbers of [N(.N)*].
  Epochs, pre-, post-, dev-releases and local parts are outside this
  model; SiEPIC's version strings are plain releases. *)

Module PkgVersion.

Definition Version := list N.

(** The release in the comparison key: trailing zeros dropped. *)
Fixpoint strip_trailing_zeros (r : Version) : Version :=
  match r with
  | [] => []
  | x :: t =>
      match strip_trailing_zeros t with
      | [] => if (x =? 0)%N then [] else [x]
      | t' => x :: t'
      end
  end.

(** Python's [<] on tuples of integers. *)
Fixpoint tuple_lt (a b : list N) : bool :=
  match a, b with
  | _, [] => false
  | [], _ :: _ => true
  | x :: a', y :: b' =>
      if (x <? y)%N then true
      else if (y <? x)%N then false
      else tuple_lt a' b'
  end.

Definition lt (a b : Version) : bool :=
  tuple_lt (strip_trailing_zeros a) (strip_trailing_zeros b).

(** Reading a plain release such as ["0.5.4"]. *)
Definition digit_of (a : ascii) : option N :=
  if PyStr.is_digit a then Some (N.of_nat (nat_of_ascii a) - 48)%N else None.

(** [cur] is the number being read, [None] before its first digit. *)
Fixpoint parse_from (cur : option N) (s : string) : option Version :=
  match s with
  | EmptyString =>
      match cur with Some n => Some [n] | None => None end
  | String a r =>
      if Ascii.eqb a "."%char then
        match cur, parse_from None r with
        | Some n, Some v => Some (n :: v)
        | _, _ => None
        end
      else
        match digit_of a with
        | Some d =>
            parse_from (Some (10 * match cur with Some n => n | None => 0 end + d)%N) r
        | None => None
        end
  end.

Definition parse (s : string) : option Version := parse_from None s.

End PkgVersion.

(* ------------------------------------------------------------------ *)
(** ** What the script and the layout library exchange *)

Module Layout.

(** [pya.Trans]: a rotation code and an integer displacement, in
    database units. *)
Inductive Rot := R0 | R90 | R180 | R270.

Record Trans := mkTrans { rot : Rot; disp_x : Z; disp_y : Z }.

(** [Trans(x, y)]: the displacement alone. *)
Definition Trans_disp (x y : Z) : Trans := mkTrans R0 x y.

(** Values of PCell parameters. *)
Inductive PyVal :=
| VInt (z : Z)
| VFloat (q : Q)
| VBool (b : bool)
| VStr (s : string)
| VLayerInfo (layer datatype : Z).

Definition Params := list (string * PyVal).

(** The layout object [ly] and the cells the script holds. *)
Inductive LayoutH := Ly (tech : string).

Inductive Cell :=
| TopCell (name : string)
| LibCell (name lib : string) (params : option Params).

(** An instance is known by the order in which it was made. *)
Inductive Inst := InstH (id : nat).

(** [ly.dbu], a positive float, as the ratio [dbu_num / dbu_den] of
    positive integers that it is. *)
Record Dbu := mkDbu { dbu_num : positive; dbu_den : positive }.

(** The float [k / dbu], kept as the quotient the script writes: Python
    rounds the division, and nothing here computes it. *)
Inductive Quotient := Quot (k : Z) (d : Dbu).

Definition div_dbu (k : Z) (d : Dbu) : Quotient := Quot k d.

(** [MeN], a float literal whose value is an integer ([605e3]). *)
Definition sci (m : Z) (e : Z) : Z := m * 10 ^ e.

(** One call into the library (or [print], or an [import]), with its
    arguments and, where the script uses it, its result. *)
Inductive Event :=
| EImport (module : string)
| EPrint (line : string)
| ENewLayout (tech name : string) (GUI overwrite : bool)
| EFloorplan (c : Cell) (w h : Z)
| ECreateCell (ly : LayoutH) (c : Cell)
| EInsert (parent child : Cell) (t : Trans) (res : Inst)
| EText (parent : Cell) (layer : string) (text : string) (t : Trans)
        (text_size : Quotient)
| EConnectCell (a : Inst) (pinA : string) (b : Cell) (pinB : string)
               (res : Inst)
| EWaveguide (a : Inst) (pinA : string) (b : Inst) (pinB : string)
             (waveguide_type : string) (turtle_B : option (list Z))
| ETransform (i : Inst) (t : Trans)
| EZoomOut (c : Cell)
| EExportLayout (c : Cell) (path filename relative_path format : string)
                (screenshot : bool) (res : string)
| EWrite (ly : LayoutH) (file : string)
| ELayoutCheck (c : Cell) (verbose GUI : bool) (file_rdb : string) (res : Z)
| EKliveShow (file lyrdb_filename technology : string).

(** Python exceptions the script can meet. *)
Inductive PyExc :=
| Exception (args : list string)
| NameError (name : string)
| TypeError (msg : string).

(** What the surroundings decide: the interpreter mode, the installed
    SiEPIC version, where the script file is, and the results of the
    library calls that the script reads. *)
Record Env := mkEnv {
  Python_Env : string;
  SiEPIC_version : PkgVersion.Version;
  file_ : string;                (* __file__ *)
  realpath_file : string;        (* os.path.realpath(__file__) *)
  ly_dbu : Dbu;
  (* what export_layout(cell, path, filename, relative_path, format)
     returns: the file it wrote *)
  export_layout_ret : string -> string -> string -> string -> string;
  (* what layout_check returns: an integer, the number of errors found *)
  layout_check_ret : Z
}.

End Layout.

(* ------------------------------------------------------------------ *)
(** ** The script *)

Module Script.
Import PyStr PosixPath Layout.

(** The calls made so far, oldest first, and the number of instances
    made. *)
Record World := mkWorld { calls : list Event; next_inst : nat }.

Definition init : World := mkWorld [] 0.

Inductive Outcome (A : Type) :=
| Done (a : A)
| Raised (e : PyExc).
Arguments Done {A} a.
Arguments Raised {A} e.

(** A statement runs in a world and either finishes or raises; the world
    it leaves holds what was done up to there. *)
Definition M (A : Type) : Type := World -> Outcome A * World.

Definition ret {A} (a : A) : M A := fun w => (Done a, w).

Definition bind {A B} (m : M A) (k : A -> M B) : M B :=
  fun w =>
    match m w with
    | (Done a, w') => k a w'
    | (Raised e, w') => (Raised e, w')
    end.

Definition raise {A} (e : PyExc) : M A := fun w => (Raised e, w).

Declare Scope py_scope.
Delimit Scope py_scope with py.
Notation "x <- m ;; k" := (bind m (fun x => k))
  (at level 61, m at next level, right associativity) : py_scope.
Notation "m ;; k" := (bind m (fun _ => k))
  (at level 61, right associativity) : py_scope.
Notation "' pat <- m ;; k" :=
  (bind m (fun x => match x with pat => k end))
  (at level 61, pat pattern, m at next level, right associativity) : py_scope.
Local Open Scope py_scope.

Definition call (e : Event) : M unit :=
  fun w => (Done tt, mkWorld (calls w ++ [e]) (next_inst w)).

Definition new_inst : M Inst :=
  fun w => (Done (InstH (next_inst w)), mkWorld (calls w) (S (next_inst w))).

(** A name that no statement binds. *)
Definition undefined {A} (name : string) : M A := raise (NameError name).

(** [fmt % arg] *)
Definition percent (fmt arg : string) : M string :=
  match percent_s fmt arg with
  | Some s => ret s
  | None => raise (TypeError "not all arguments converted during string formatting")
  end.

(** *** The library calls, as the script writes them *)

Definition import (module : string) : M unit := call (EImport module).
Definition print (line : string) : M unit := call (EPrint line).

Definition new_layout (tech name : string) (GUI overwrite : bool)
  : M (Cell * LayoutH) :=
  call (ENewLayout tech name GUI overwrite) ;;
  ret (TopCell name, Ly tech).

Definition floorplan (c : Cell) (w h : Z) : M unit :=
  call (EFloorplan c w h).

Definition create_cell (ly : LayoutH) (name lib : string)
           (params : option Params) : M Cell :=
  let c := LibCell name lib params in
  call (ECreateCell ly c) ;; ret c.

(** [cell.insert(CellInstArray(child.cell_index(), t))] *)
Definition insert (parent child : Cell) (t : Trans) : M Inst :=
  i <- new_inst ;;
  call (EInsert parent child t i) ;; ret i.

(** [cell.shapes(ly.layer(ly.TECHNOLOGY[layer])).insert(Text(text, t)).text_size = size] *)
Definition insert_text (parent : Cell) (layer text : string) (t : Trans)
           (size : Quotient) : M unit :=
  call (EText parent layer text t size).

Definition connect_cell (a : Inst) (pinA : string) (b : Cell)
           (pinB : string) : M Inst :=
  i <- new_inst ;;
  call (EConnectCell a pinA b pinB i) ;; ret i.

Definition connect_pins_with_waveguide (a : Inst) (pinA : string)
           (b : Inst) (pinB : string) (waveguide_type : string)
           (turtle_B : option (list Z)) : M unit :=
  call (EWaveguide a pinA b pinB waveguide_type turtle_B).

Definition transform (i : Inst) (t : Trans) : M unit :=
  call (ETransform i t).

Definition zoom_out (c : Cell) : M unit := call (EZoomOut c).

Definition export_layout (env : Env) (c : Cell)
           (path filename relative_path format : string)
           (screenshot : bool) : M string :=
  let res := export_layout_ret env path filename relative_path format in
  call (EExportLayout c path filename relative_path format screenshot res) ;;
  ret res.

Definition write (ly : LayoutH) (file : string) : M unit :=
  call (EWrite ly file).

Definition layout_check (env : Env) (c : Cell) (verbose GUI : bool)
           (file_rdb : string) : M Z :=
  let res := layout_check_ret env in
  call (ELayoutCheck c verbose GUI file_rdb res) ;; ret res.

Definition klive_show (file lyrdb_filename technology : string) : M unit :=
  call (EKliveShow file lyrdb_filename technology).

(** *** Module-level constants (lines 24-26, 46, 63-65) *)

Definition designer_name := "LukasChrostowski".
Definition export_type := "static".
Definition tech_name := "EBeam".
Definition waveguide_type1 := "SiN Strip TE 1310 nm, w=750 nm".
Definition waveguide_type2 := "SiN Strip TE 1310 nm, w=800 nm".
Definition waveguide_type_delay :=
  "SiN routing TE 1550 nm (compound waveguide)".

(** [version.parse("0.5.4")] *)
Definition min_version : PkgVersion.Version :=
  match PkgVersion.parse "0.5.4" with
  | Some v => v
  | None => []
  end.

Definition version_error : PyExc :=
  Exception ["Errors";
             "This example requires SiEPIC-Tools version 0.5.4 or greater."].

(** Truth of an integer used as a condition. *)
Definition truthy (z : Z) : bool := negb (z =? 0).

(** *** Lines 100-131: the branch under [if 0] *)

Definition alternate_mzi (ly : LayoutH) (cell cell_ebeam_gc : Cell)
           (dbu : Dbu) : M unit :=
  cell_ebeam_delay <-
    create_cell ly "spiral_paperclip" "EBeam_Beta"
      (Some [("waveguide_type", VStr waveguide_type_delay);
             ("length", VInt 200);
             ("flatten", VBool true)]) ;;
  let x := 60000 in
  let y := 205000 in
  let t := mkTrans R0 x y in
  instGC1 <- insert cell cell_ebeam_gc t ;;
  let t := mkTrans R0 x (y + 127000) in
  instGC2 <- insert cell cell_ebeam_gc t ;;
  text <- percent "opt_in_TE_1550_device_%s_MZI3" designer_name ;;
  insert_text cell "Text" text t (div_dbu 5 dbu) ;;
  cell_ebeam_y_dream <- undefined "cell_ebeam_y_dream" ;;
  instY1 <- connect_cell instGC1 "opt1" cell_ebeam_y_dream "opt1" ;;
  transform instY1 (Trans_disp 20000 0) ;;
  cell_ebeam_y_dream <- undefined "cell_ebeam_y_dream" ;;
  instY2 <- connect_cell instGC2 "opt1" cell_ebeam_y_dream "opt1" ;;
  transform instY2 (Trans_disp 20000 0) ;;
  instSpiral <- connect_cell instY2 "opt2" cell_ebeam_delay "optA" ;;
  transform instSpiral (Trans_disp 20000 0) ;;
  waveguide_type <- undefined "waveguide_type" ;;
  connect_pins_with_waveguide instGC1 "opt1" instY1 "opt1" waveguide_type None ;;
  waveguide_type <- undefined "waveguide_type" ;;
  connect_pins_with_waveguide instGC2 "opt1" instY2 "opt1" waveguide_type None ;;
  waveguide_type <- undefined "waveguide_type" ;;
  connect_pins_with_waveguide instY1 "opt2" instY2 "opt3" waveguide_type None ;;
  waveguide_type <- undefined "waveguide_type" ;;
  connect_pins_with_waveguide instY2 "opt2" instSpiral "optA" waveguide_type None ;;
  waveguide_type <- undefined "waveguide_type" ;;
  connect_pins_with_waveguide instY1 "opt3" instSpiral "optB" waveguide_type
    (Some [5; -90]).

(** *** Lines 57-98: the layout of the MZI *)

Definition build_mzi (top_cell_name : string) (env : Env)
  : M (Cell * LayoutH) :=
  '(cell, ly) <- new_layout tech_name top_cell_name true true ;;
  floorplan cell (sci 605 3) (sci 410 3) ;;
  let dbu := ly_dbu env in
  import "SiEPIC.scripts" ;;
  cell_ebeam_gc <- create_cell ly "ebeam_GC_SiN_TE_1310_8deg" "EBeam-SiN" (Some []) ;;
  cell_ebeam_y <- create_cell ly "ebeam_YBranch_te1310" "EBeam-SiN" None ;;
  cell_ebeam_taper <-
    create_cell ly "taper_bezier" "EBeam_Beta"
      (Some [("wg_width1", VFloat 0.75);
             ("wg_width2", VFloat 0.8);
             ("wg_length", VInt 1);
             ("silayer", VLayerInfo 4 0)]) ;;
  let x := 60000 in
  let y := 16000 in
  let t := mkTrans R0 x y in
  instGC1 <- insert cell cell_ebeam_gc t ;;
  let t := mkTrans R0 x (y + 127000) in
  instGC2 <- insert cell cell_ebeam_gc t ;;
  text <- percent "opt_in_TE_1310_device_%s_MZI1" designer_name ;;
  insert_text cell "Text" text t (div_dbu 5 dbu) ;;
  instTaper1 <- connect_cell instGC1 "opt1" cell_ebeam_taper "opt1" ;;
  instY1 <- connect_cell instTaper1 "opt2" cell_ebeam_y "opt1" ;;
  instTaper2 <- connect_cell instGC2 "opt1" cell_ebeam_taper "opt1" ;;
  instY2 <- connect_cell instTaper2 "opt2" cell_ebeam_y "opt1" ;;
  connect_pins_with_waveguide instY1 "opt2" instY2 "opt3" waveguide_type2
    (Some [60; -90]) ;;
  connect_pins_with_waveguide instY1 "opt3" instY2 "opt2" waveguide_type2
    (Some [60 + 50; -90]) ;;
  (if truthy 0
   then alternate_mzi ly cell cell_ebeam_gc dbu
   else ret tt) ;;
  ret (cell, ly).

(** *** Lines 133-153: zoom, export, verify, show *)

Definition export_and_verify (export_type : string) (env : Env)
           (cell : Cell) (ly : LayoutH) : M unit :=
  zoom_out cell ;;
  let path := dirname (realpath_file env) in
  let filename := fst (splitext (basename (file_ env))) in
  file_out <-
    (if String.eqb export_type "static"
     then export_layout env cell path filename ".." "oas" true
     else
       let file_out := join path [".."; filename ++ ".oas"] in
       write ly file_out ;; ret file_out) ;;
  let file_lyrdb := join path [filename ++ ".lyrdb"] in
  num_errors <- layout_check env cell false true file_lyrdb ;;
  line <- percent "Number of errors: %s" (str_of_Z num_errors) ;;
  print line ;;
  if String.eqb (Python_Env env) "Script"
  then
    import "SiEPIC.utils" ;;
    klive_show file_out file_lyrdb tech_name
  else ret tt.

(** *** The whole file, for a value of the [export_type] constant *)

Definition script_with (export_type : string) (env : Env) : M unit :=
  top_cell_name <- percent "EBeam_%s_MZI" designer_name ;;
  import "pya" ;;
  import "pya" ;;
  import "SiEPIC" ;;
  import "SiEPIC._globals" ;;
  import "SiEPIC.scripts" ;;
  import "SiEPIC.utils.layout" ;;
  import "SiEPIC.extend" ;;
  import "SiEPIC.verification" ;;
  import "os" ;;
  (if String.eqb (Python_Env env) "Script"
   then import "siepic_ebeam_pdk"
   else ret tt) ;;
  print "EBeam_LukasChrostowski_MZI layout script" ;;
  import "packaging" ;;
  (if PkgVersion.lt (SiEPIC_version env) min_version
   then raise version_error
   else ret tt) ;;
  '(cell, ly) <- build_mzi top_cell_name env ;;
  export_and_verify export_type env cell ly.

Definition script : Env -> M unit := script_with export_type.

(** Running the file from a fresh interpreter. *)
Definition run_with (export_type : string) (env : Env)
  : Outcome unit * World :=
  script_with export_type env init.

Definition run (env : Env) : Outcome unit * World := script env init.

Definition outcome (env : Env) : Outcome unit := fst (run env).
Definition trace (env : Env) : list Event := calls (snd (run env)).

End Script.

(* ------------------------------------------------------------------ *)
(** ** Facts about the string and path functions *)

Module StrFacts.
Import PyStr.

Lemma append_empty_r (s : string) : s ++ "" = s.
Proof. induction s as [|a r IH]; simpl; [reflexivity|now rewrite IH]. Qed.

Lemma rfind_lower (c : ascii) (s : string) : -1 <= rfind c s.
Proof.
  induction s as [|a r IH]; simpl; [lia|].
  destruct (0 <=? rfind c r) eqn:E; [lia|].
  destruct (Ascii.eqb a c); lia.
Qed.

Lemma rfind_lacks (c : ascii) (s : string) :
  lacks c s = true -> rfind c s = -1.
Proof.
  induction s as [|a r IH]; simpl; [reflexivity|].
  intros H. apply andb_prop in H. destruct H as [Ha Hr].
  rewrite (IH Hr). simpl.
  destruct (Ascii.eqb a c); [discriminate|reflexivity].
Qed.

Lemma rfind_app_char (c : ascii) (a f : string) :
  lacks c f = true -> rfind c (a ++ String c f) = Z.of_nat (String.length a).
Proof.
  intros Hf. induction a as [|x a IH].
  - simpl. rewrite (rfind_lacks _ _ Hf). simpl.
    rewrite Ascii.eqb_refl. reflexivity.
  - cbn [append rfind String.length]. rewrite IH.
    destruct (0 <=? Z.of_nat (String.length a)) eqn:E; [lia|].
    apply Z.leb_gt in E. lia.
Qed.

Lemma from_app (a b : string) : from (String.length a) (a ++ b) = b.
Proof. induction a as [|x a IH]; simpl; [destruct b; reflexivity|exact IH]. Qed.

Lemma upto_app (a b : string) : upto (String.length a) (a ++ b) = a.
Proof.
  induction a as [|x a IH]; simpl; [destruct b; reflexivity|].
  now rewrite IH.
Qed.

Lemma from_past_char (c : ascii) (a f : string) :
  from (S (String.length a)) (a ++ String c f) = f.
Proof. induction a as [|x a IH]; simpl; [destruct f; reflexivity|exact IH]. Qed.

Lemma upto_past_char (c : ascii) (a f : string) :
  upto (S (String.length a)) (a ++ String c f) = a ++ String c EmptyString.
Proof.
  induction a as [|x a IH].
  - simpl. destruct f; reflexivity.
  - simpl in *. now rewrite IH.
Qed.

Lemma lacks_app (c : ascii) (a b : string) :
  lacks c (a ++ b) = lacks c a && lacks c b.
Proof.
  induction a as [|x a IH]; simpl; [reflexivity|].
  now rewrite IH, andb_assoc.
Qed.

Lemma lacks_upto (c : ascii) (n : nat) (s : string) :
  lacks c s = true -> lacks c (upto n s) = true.
Proof.
  revert s. induction n as [|n IH]; intros [|a r]; simpl; trivial.
  intros H. apply andb_prop in H. destruct H as [Ha Hr].
  now rewrite Ha, (IH _ Hr).
Qed.

(** What follows the last [c] holds no [c]. *)
Lemma lacks_after_rfind (c : ascii) (s : string) :
  lacks c (from (Z.to_nat (rfind c s + 1)) s) = true.
Proof.
  induction s as [|a r IH]; [reflexivity|].
  cbn [rfind]. pose proof (rfind_lower c r) as Hlo.
  destruct (0 <=? rfind c r) eqn:E.
  - apply Z.leb_le in E.
    replace (Z.to_nat (rfind c r + 1 + 1)) with (S (Z.to_nat (rfind c r + 1)))
      by lia.
    exact IH.
  - apply Z.leb_gt in E.
    assert (Hr : rfind c r = -1) by lia.
    rewrite Hr in IH. simpl in IH.
    assert (Hl : lacks c r = true) by (destruct r; exact IH).
    destruct (Ascii.eqb a c) eqn:Ea; simpl.
    + destruct r; exact Hl.
    + now rewrite Ea, Hl.
Qed.

Lemma rstrip_snoc (c : ascii) (a : string) :
  rstrip c (a ++ String c EmptyString) = rstrip c a.
Proof.
  induction a as [|x a IH]; simpl.
  - now rewrite Ascii.eqb_refl.
  - now rewrite IH.
Qed.

Lemma all_char_snoc (c : ascii) (a : string) :
  all_char c (a ++ String c EmptyString) = all_char c a.
Proof.
  induction a as [|x a IH]; simpl.
  - now rewrite Ascii.eqb_refl.
  - now rewrite IH.
Qed.

Lemma endswith_app (c : ascii) (a b : string) :
  b <> EmptyString -> endswith c (a ++ b) = endswith c b.
Proof.
  intros Hb. induction a as [|x a IH]; [reflexivity|].
  cbn [append]. cbn [endswith].
  destruct (a ++ b) eqn:E; [|exact IH].
  destruct a; simpl in E; [contradiction|discriminate].
Qed.


Lemma rstrip_fixed (c : ascii) (s : string) :
  endswith c s = false -> rstrip c s = s.
Proof.
  induction s as [|a r IH]; [reflexivity|].
  destruct r as [|b t].
  - simpl. intros ->. reflexivity.
  - intros H. change (endswith c (String b t) = false) in H.
    specialize (IH H). cbn [rstrip] in *. rewrite IH. reflexivity.
Qed.

Lemma all_char_endswith (c : ascii) (s : string) :
  all_char c s = true -> s <> EmptyString -> endswith c s = true.
Proof.
  induction s as [|a r IH]; [congruence|].
  simpl. intros H _. apply andb_prop in H. destruct H as [Ha Hr].
  destruct r as [|b t]; [exact Ha|].
  apply IH; [exact Hr|discriminate].
Qed.

(** A string that ends with [c] is some string followed by [c]. *)
Lemma endswith_snoc (c : ascii) (s : string) :
  endswith c s = true -> exists a, s = a ++ String c EmptyString.
Proof.
  induction s as [|x r IH]; [discriminate|].
  destruct r as [|b t].
  - simpl. intros H. apply Ascii.eqb_eq in H. subst x.
    now exists EmptyString.
  - intros H. change (endswith c (String b t) = true) in H.
    destruct (IH H) as [a Ha]. exists (String x a). simpl. now rewrite Ha.
Qed.

Lemma all_digits_uint (d : Decimal.uint) :
  all_digits (NilEmpty.string_of_uint d) = true.
Proof. induction d; simpl; trivial. Qed.

(** The digits of a positive number begin with a digit that is not zero. *)
Lemma to_uint_no_leading_zero (p : positive) (d : Decimal.uint) :
  Pos.to_uint p <> Decimal.D0 d.
Proof.
  intros E.
  assert (Hu : Decimal.unorm (Pos.to_uint p) = Pos.to_uint p).
  { rewrite <- DecimalPos.Unsigned.to_of, DecimalPos.Unsigned.of_to.
    reflexivity. }
  rewrite E, DecimalFacts.unorm_D0 in Hu.
  destruct (Decimal.uint_eq_dec d Decimal.Nil) as [->|Hd].
  - exact (DecimalPos.Unsigned.to_uint_nonzero p E).
  - pose proof (DecimalFacts.nb_digits_unorm d Hd) as Hle.
    rewrite Hu in Hle. simpl in Hle. lia.
Qed.

Lemma plain_decimal_pos (p : positive) :
  plain_decimal (NilEmpty.string_of_uint (Pos.to_uint p)) = true
  /\ String.eqb (NilEmpty.string_of_uint (Pos.to_uint p)) "0" = false.
Proof.
  pose proof (to_uint_no_leading_zero p) as H0.
  pose proof (DecimalPos.Unsigned.to_uint_nonnil p) as Hn.
  pose proof (all_digits_uint (Pos.to_uint p)) as Hd.
  unfold plain_decimal. rewrite Hd.
  destruct (Pos.to_uint p) as [|d|d|d|d|d|d|d|d|d|d];
    [congruence | exfalso; exact (H0 d eq_refl) | ..];
    split; reflexivity.
Qed.


(** [str(z)] is the plain numeral of [z], whatever its sign. *)
Lemma plain_int_str_of_Z (z : Z) : plain_int (str_of_Z z) = true.
Proof.
  destruct z as [|p|p]; [reflexivity| |].
  - destruct (plain_decimal_pos p) as [Hp _].
    change (str_of_Z (Z.pos p)) with (NilEmpty.string_of_uint (Pos.to_uint p)).
    unfold plain_int.
    pose proof (all_digits_uint (Pos.to_uint p)) as Hd.
    destruct (NilEmpty.string_of_uint (Pos.to_uint p)) as [|a r]; [exact Hp|].
    destruct a as [[] [] [] [] [] [] [] []]; try exact Hp.
    discriminate Hd.
  - destruct (plain_decimal_pos p) as [Hp Hz].
    change (str_of_Z (Z.neg p))
      with (String "-" (NilEmpty.string_of_uint (Pos.to_uint p))).
    unfold plain_int. now rewrite Hp, Hz.
Qed.

(** [str(z)] of a non-negative [z] is a run of decimal digits: no sign. *)
Lemma all_digits_str_of_Z (z : Z) : 0 <= z -> all_digits (str_of_Z z) = true.
Proof.
  destruct z as [|p|p]; intros H; [reflexivity| |lia].
  apply all_digits_uint.
Qed.

(** [str(z)] of a negative [z] begins with the minus sign. *)
Lemma all_digits_str_of_neg (z : Z) : z < 0 -> all_digits (str_of_Z z) = false.
Proof. destruct z as [|p|p]; intros H; [lia|lia|reflexivity]. Qed.

(** Reading back what [str] wrote gives the integer again. *)
Lemma int_of_str_of_Z (z : Z) : int_of_str (str_of_Z z) = Some z.
Proof.
  unfold int_of_str, str_of_Z.
  assert (H : NilZero.int_of_string (NilEmpty.string_of_int (Z.to_int z))
              = Some (Z.to_int z)).
  { destruct z as [|p|p]; [reflexivity| |].
    - pose proof (DecimalPos.Unsigned.to_uint_nonnil p) as Hn.
      rewrite <- (NilZero.isi (Z.to_int (Zpos p))).
      + simpl. unfold NilZero.string_of_uint.
        destruct (Pos.to_uint p); [congruence|reflexivity..].
      + simpl. congruence.
      + discriminate.
    - pose proof (DecimalPos.Unsigned.to_uint_nonnil p) as Hn.
      rewrite <- (NilZero.isi (Z.to_int (Zneg p))).
      + simpl. unfold NilZero.string_of_uint.
        destruct (Pos.to_uint p); [congruence|reflexivity..].
      + discriminate.
      + simpl. congruence. }
  rewrite H. simpl. now rewrite DecimalZ.of_to.
Qed.

End StrFacts.

Module PathFacts.
Import PyStr PosixPath StrFacts.

(** The last component of a path holds no separator. *)
Lemma basename_lacks_sep (p : string) : lacks sep (basename p) = true.
Proof. unfold basename. apply lacks_after_rfind. Qed.

(** Nor does the root that [splitext] leaves of it. *)
Lemma splitext_root_lacks_sep (p : string) :
  lacks sep p = true -> lacks sep (fst (splitext p)) = true.
Proof.
  intros H. unfold splitext.
  destruct (_ && _); simpl; [apply lacks_upto|]; exact H.
Qed.

(** The shape of a directory name as [dirname] gives it: separators only
    (the empty string included), or no separator at the end. *)
Definition trimmed (d : string) : Prop :=
  all_char sep d = true \/ endswith sep d = false.


Lemma startswith_lacks (c : ascii) (f : string) :
  lacks c f = true -> startswith c f = false.
Proof.
  destruct f as [|a r]; simpl; [reflexivity|].
  intros H. apply andb_prop in H. destruct H as [Ha _].
  now apply negb_true_iff in Ha.
Qed.

Lemma app_snoc (a f : string) (c : ascii) :
  (a ++ String c EmptyString) ++ f = a ++ String c f.
Proof. induction a as [|x a IH]; simpl; [reflexivity|now rewrite IH]. Qed.

Lemma split_at_last_sep (a f : string) :
  lacks sep f = true ->
  basename (a ++ String sep f) = f /\
  dirname (a ++ String sep f) =
    (if all_char sep a then a ++ String sep EmptyString else rstrip sep a).
Proof.
  intros Hf. unfold basename, dirname.
  rewrite (rfind_app_char _ _ _ Hf).
  replace (Z.to_nat (Z.of_nat (String.length a) + 1))
    with (S (String.length a)) by lia.
  rewrite from_past_char, upto_past_char, all_char_snoc, rstrip_snoc.
  split; [reflexivity|].
  assert (He : is_empty (a ++ String sep EmptyString) = false)
    by (destruct a; reflexivity).
  rewrite He. simpl. destruct (all_char sep a); reflexivity.
Qed.

(** Joining a trimmed directory and a bare file name, then splitting the
    result, gives both back. *)
Lemma join_step_split (d f : string) :
  trimmed d -> lacks sep f = true ->
  dirname (join_step d f) = d /\ basename (join_step d f) = f.
Proof.
  intros Hd Hf. unfold join_step.
  rewrite (startswith_lacks _ _ Hf).
  destruct d as [|x d'] eqn:Ed.
  - simpl. unfold dirname, basename.
    rewrite (rfind_lacks _ _ Hf). simpl.
    split; destruct f; reflexivity.
  - rewrite <- Ed in *. assert (Hne : d <> EmptyString) by (subst; discriminate).
    replace (is_empty d) with false by (subst; reflexivity). simpl.
    destruct (endswith sep d) eqn:Ee.
    + destruct (endswith_snoc _ _ Ee) as [a Ha].
      destruct Hd as [Hall|Hend]; [|congruence].
      rewrite Ha, app_snoc.
      destruct (split_at_last_sep a f Hf) as [Hb Hdn].
      rewrite Hb, Hdn. rewrite Ha, all_char_snoc in Hall.
      now rewrite Hall.
    + destruct (split_at_last_sep d f Hf) as [Hb Hdn].
      rewrite Hb, Hdn.
      destruct (all_char sep d) eqn:Hall.
      * rewrite (all_char_endswith _ _ Hall Hne) in Ee. discriminate.
      * split; [apply rstrip_fixed; exact Ee|reflexivity].
Qed.

(** [os.path.join(d, '..')] never ends with a separator. *)
Lemma join_step_dotdot_trimmed (d : string) : trimmed (join_step d "..").
Proof.
  right. unfold join_step. simpl.
  destruct (is_empty d || endswith sep d).
  - now rewrite endswith_app.
  - now rewrite endswith_app.
Qed.

(** The functions on the paths the script meets. *)
Example dirname_script :
  dirname "/home/user/openEBL/submissions/KLayout Python/EBeam_LukasChrostowski_MZI_1310.py"
  = "/home/user/openEBL/submissions/KLayout Python".
Proof. reflexivity. Qed.

Example stem_script :
  fst (splitext (basename "submissions/KLayout Python/EBeam_LukasChrostowski_MZI_1310.py"))
  = "EBeam_LukasChrostowski_MZI_1310".
Proof. reflexivity. Qed.

Example splitext_dotfile : splitext ".bashrc" = (".bashrc", "").
Proof. reflexivity. Qed.

Example splitext_last_dot : splitext "a.b/x.tar.gz" = ("a.b/x.tar", ".gz").
Proof. reflexivity. Qed.

Example dirname_root : dirname "/x.py" = "/".
Proof. reflexivity. Qed.

Example join_absolute : join "/a" ["b"; "/c"; "d"] = "/c/d".
Proof. reflexivity. Qed.

Example join_parent :
  join "/work/KLayout Python" [".."; "mzi.oas"]
  = "/work/KLayout Python/../mzi.oas".
Proof. reflexivity. Qed.

End PathFacts.

Module VersionFacts.
Import PkgVersion.

Lemma tuple_lt_irrefl (a : list N) : tuple_lt a a = false.
Proof.
  induction a as [|x a IH]; simpl; [reflexivity|].
  now rewrite N.ltb_irrefl.
Qed.

(** No version is below itself. *)
Lemma lt_irrefl (v : Version) : lt v v = false.
Proof. apply tuple_lt_irrefl. Qed.

Lemma tuple_lt_asym (a b : list N) :
  tuple_lt a b = true -> tuple_lt b a = false.
Proof.
  revert b. induction a as [|x a IH]; intros [|y b]; simpl; trivial;
    try discriminate.
  destruct (x <? y)%N eqn:Exy; destruct (y <? x)%N eqn:Eyx; trivial.
  - apply N.ltb_lt in Exy, Eyx. lia.
  - discriminate.
  - apply IH.
Qed.

Lemma lt_asym (v w : Version) : lt v w = true -> lt w v = false.
Proof. apply tuple_lt_asym. Qed.

Example min_version_release : Script.min_version = [0; 5; 4]%N.
Proof. reflexivity. Qed.

Example below_0_5_3 : lt [0; 5; 3]%N Script.min_version = true.
Proof. reflexivity. Qed.

Example below_0_5 : lt [0; 5]%N Script.min_version = true.
Proof. reflexivity. Qed.

Example below_0_5_3_9 : lt [0; 5; 3; 9]%N Script.min_version = true.
Proof. reflexivity. Qed.

Example not_below_0_5_4_0 : lt [0; 5; 4; 0]%N Script.min_version = false.
Proof. reflexivity. Qed.

Example not_below_0_5_10 : lt [0; 5; 10]%N Script.min_version = false.
Proof. reflexivity. Qed.

Example not_below_1 : lt [1]%N Script.min_version = false.
Proof. reflexivity. Qed.

End VersionFacts.

(* ------------------------------------------------------------------ *)
(** ** What a run of the script does *)

Module Props.
Import PyStr PosixPath Layout Script.

(** *** Reading a trace *)

(** The calls of one kind, in order, with their arguments. *)
Definition pick {A : Type} (f : Event -> option A) (tr : list Event) : list A :=
  flat_map (fun e => match f e with Some a => [a] | None => [] end) tr.

Definition new_layouts : list Event -> list (string * string) :=
  pick (fun e => match e with
                 | ENewLayout tech name _ _ => Some (tech, name)
                 | _ => None end).

Definition floorplans : list Event -> list (Cell * Z * Z) :=
  pick (fun e => match e with
                 | EFloorplan c w h => Some (c, w, h)
                 | _ => None end).

Definition created : list Event -> list Cell :=
  pick (fun e => match e with
                 | ECreateCell _ c => Some c
                 | _ => None end).

Definition inserts : list Event -> list (Cell * Cell * Trans * Inst) :=
  pick (fun e => match e with
                 | EInsert p c t i => Some (p, c, t, i)
                 | _ => None end).

Definition texts : list Event -> list (Cell * string * string * Trans) :=
  pick (fun e => match e with
                 | EText p layer text t _ => Some (p, layer, text, t)
                 | _ => None end).

Definition connections
  : list Event -> list (Inst * string * Cell * string * Inst) :=
  pick (fun e => match e with
                 | EConnectCell a pa b pb i => Some (a, pa, b, pb, i)
                 | _ => None end).

Definition waveguides
  : list Event ->
    list (Inst * string * Inst * string * string * option (list Z)) :=
  pick (fun e => match e with
                 | EWaveguide a pa b pb wt tb => Some (a, pa, b, pb, wt, tb)
                 | _ => None end).

Definition exports
  : list Event -> list (Cell * string * string * string * string * bool) :=
  pick (fun e => match e with
                 | EExportLayout c p f r fmt s _ => Some (c, p, f, r, fmt, s)
                 | _ => None end).

Definition writes : list Event -> list string :=
  pick (fun e => match e with
                 | EWrite _ file => Some file
                 | _ => None end).

(** Every instance made, with the cell it is an instance of. *)
Definition instances : list Event -> list (Cell * Inst) :=
  pick (fun e => match e with
                 | EInsert _ c _ i => Some (c, i)
                 | EConnectCell _ _ c _ i => Some (c, i)
                 | _ => None end).

Definition cell_name (c : Cell) : string :=
  match c with
  | TopCell name => name
  | LibCell name _ _ => name
  end.

Definition instances_of (name : string) (tr : list Event) : list Inst :=
  map snd (filter (fun ci => String.eqb (cell_name (fst ci)) name)
                  (instances tr)).

(** Calls that make or change the layout. *)
Definition creates_layout (e : Event) : bool :=
  match e with
  | ENewLayout _ _ _ _ | EFloorplan _ _ _ | ECreateCell _ _
  | EInsert _ _ _ _ | EText _ _ _ _ _ | EConnectCell _ _ _ _ _
  | EWaveguide _ _ _ _ _ _ | ETransform _ _ => true
  | _ => false
  end.

Definition is_export (e : Event) : bool :=
  match e with
  | EExportLayout _ _ _ _ _ _ _ | EWrite _ _ => true
  | _ => false
  end.

Definition is_check (e : Event) : bool :=
  match e with
  | ELayoutCheck _ _ _ _ _ => true
  | _ => false
  end.

Definition is_show (e : Event) : bool :=
  match e with EKliveShow _ _ _ => true | _ => false end.

(** A call that names the waveguide preset [wt]: a route drawn with it, or
    a cell made with it as its [waveguide_type] parameter. *)
Definition uses_preset (wt : string) (e : Event) : bool :=
  match e with
  | EWaveguide _ _ _ _ wt' _ => String.eqb wt' wt
  | ECreateCell _ (LibCell _ _ (Some ps)) =>
      existsb (fun kv => match snd kv with
                         | VStr s => String.eqb s wt
                         | _ => false
                         end) ps
  | _ => false
  end.

(** *** Runs *)

Definition outcome_with (export_type : string) (env : Env) : Outcome unit :=
  fst (run_with export_type env).

Definition trace_with (export_type : string) (env : Env) : list Event :=
  calls (snd (run_with export_type env)).

(** The installed SiEPIC passes the version guard. *)
Definition compatible (env : Env) : Prop :=
  PkgVersion.lt (SiEPIC_version env) min_version = false.

(** [path] and [filename] of lines 137-138. *)
Definition script_dir (env : Env) : string := dirname (realpath_file env).
Definition script_stem (env : Env) : string :=
  fst (splitext (basename (file_ env))).

(** What SiEPIC's [export_layout] answers: the file it wrote. *)
Definition siepic_export_path (path filename relative_path format : string)
  : string :=
  join path [relative_path; filename ++ "." ++ format].

(** Two environments to run the script in: a current SiEPIC under plain
    Python, and an old one inside KLayout. *)
Definition env_script : Env :=
  mkEnv "Script" [0; 5; 13]%N
        "/home/user/openEBL/submissions/KLayout Python/EBeam_LukasChrostowski_MZI_1310.py"
        "/home/user/openEBL/submissions/KLayout Python/EBeam_LukasChrostowski_MZI_1310.py"
        (mkDbu 1 1000) siepic_export_path 0.


Definition env_old : Env :=
  mkEnv "KLayout_GUI" [0; 5; 3]%N
        "EBeam_LukasChrostowski_MZI_1310.py"
        "/home/user/KLayout Python/EBeam_LukasChrostowski_MZI_1310.py"
        (mkDbu 1 1000) siepic_export_path 0.

(** Runs the script symbolically: the version guard is settled by [Hv], the
    two tests on strings of the environment by cases. *)
Ltac settle_guard Hv :=
  unfold outcome, trace, run, script, outcome_with, trace_with, run_with,
    script_with, export_and_verify, compatible in *;
  rewrite Hv.

Ltac by_cases_on_mode :=
  match goal with
  | |- context [String.eqb (Python_Env ?env) "Script"] =>
      destruct (String.eqb (Python_Env env) "Script")
  end.

Ltac by_cases_on_export :=
  match goal with
  | |- context [String.eqb ?et "static"] =>
      destruct (String.eqb et "static")
  | _ => idtac
  end.

(** How a run ends is decided by the version guard alone. *)
Lemma outcome_with_eq (export_type : string) (env : Env) :
  outcome_with export_type env =
  if PkgVersion.lt (SiEPIC_version env) min_version
  then Raised version_error else Done tt.
Proof.
  destruct (PkgVersion.lt (SiEPIC_version env) min_version) eqn:Hv;
    settle_guard Hv; by_cases_on_mode; by_cases_on_export; reflexivity.
Qed.

(** The script raises only at the version guard. *)
Lemma raises_only_below (export_type : string) (env : Env) (e : PyExc) :
  outcome_with export_type env = Raised e ->
  PkgVersion.lt (SiEPIC_version env) min_version = true.
Proof.
  rewrite outcome_with_eq.
  destruct (PkgVersion.lt (SiEPIC_version env) min_version);
    [reflexivity|discriminate].
Qed.

(** The file the [else] branch of line 139 writes, and the report file. *)
Definition target_file (env : Env) : string :=
  join (script_dir env) [".."; script_stem env ++ ".oas"].

Definition report_file (env : Env) : string :=
  join (script_dir env) [script_stem env ++ ".lyrdb"].

Lemma script_stem_lacks_sep (env : Env) (ext : string) :
  lacks sep ext = true -> lacks sep (script_stem env ++ ext) = true.
Proof.
  intros He. rewrite StrFacts.lacks_app, He, andb_true_r.
  apply PathFacts.splitext_root_lacks_sep, PathFacts.basename_lacks_sep.
Qed.

(** The geometry file lies in [<script directory>/..] and has the script's
    name with the extension replaced. *)
Lemma target_file_split (env : Env) :
  dirname (target_file env) = join (script_dir env) [".."]
  /\ basename (target_file env) = script_stem env ++ ".oas".
Proof.
  unfold target_file, join. cbn [fold_left].
  apply PathFacts.join_step_split.
  - apply PathFacts.join_step_dotdot_trimmed.
  - now apply script_stem_lacks_sep.
Qed.


(** The calls before the first one that satisfies [p], and the calls from
    it on. *)
Fixpoint before (p : Event -> bool) (tr : list Event) : list Event :=
  match tr with
  | [] => []
  | e :: r => if p e then [] else e :: before p r
  end.

Fixpoint since (p : Event -> bool) (tr : list Event) : list Event :=
  match tr with
  | [] => []
  | e :: r => if p e then e :: r else since p r
  end.

Lemma before_since (p : Event -> bool) (tr : list Event) :
  (before p tr ++ since p tr)%list = tr.
Proof.
  induction tr as [|e r IH]; simpl; [reflexivity|].
  destruct (p e); simpl; [reflexivity|now rewrite IH].
Qed.

Lemma before_none (p : Event -> bool) (tr : list Event) :
  existsb p (before p tr) = false.
Proof.
  induction tr as [|e r IH]; simpl; [reflexivity|].
  destruct (p e) eqn:E; simpl; [reflexivity|now rewrite E].
Qed.


(** Calls that only the branch of lines 100-131 makes. *)
Definition alternate_only (e : Event) : bool :=
  match e with
  | ECreateCell _ c => String.eqb (cell_name c) "spiral_paperclip"
  | ETransform _ _ => true
  | _ => false
  end.

Definition route_preset
  (r : Inst * string * Inst * string * string * option (list Z)) : string :=
  snd (fst r).

Definition route_hint
  (r : Inst * string * Inst * string * string * option (list Z))
  : option (list Z) :=
  snd r.

(** The library cells of lines 68-75. *)
Definition cell_ebeam_gc : Cell :=
  LibCell "ebeam_GC_SiN_TE_1310_8deg" "EBeam-SiN" (Some []).

Definition cell_ebeam_y : Cell :=
  LibCell "ebeam_YBranch_te1310" "EBeam-SiN" None.

Definition cell_ebeam_taper : Cell :=
  LibCell "taper_bezier" "EBeam_Beta"
          (Some [("wg_width1", VFloat 0.75); ("wg_width2", VFloat 0.8);
                 ("wg_length", VInt 1); ("silayer", VLayerInfo 4 0)]).

Ltac distinct_handles :=
  repeat constructor; simpl; intuition discriminate.

(** *** The claims *)

(** C1. With SiEPIC strictly below 0.5.4 the script raises
    [Exception("Errors", "This example requires SiEPIC-Tools version 0.5.4
    or greater.")] and has made no call that creates or changes a layout by
    then (no new layout, no instance); and in every environment the run
    ends with that exception when the version is below 0.5.4 and ends
    normally otherwise, so the version guard is the only check. *)
Theorem version_guard_only_check (env : Env) :
  PkgVersion.lt (SiEPIC_version env) [0; 5; 4]%N = true ->
  outcome env =
    Raised (Exception
              ["Errors";
               "This example requires SiEPIC-Tools version 0.5.4 or greater."])
  /\ existsb creates_layout (trace env) = false
  /\ new_layouts (trace env) = []
  /\ instances (trace env) = []
  /\ forall env' : Env,
       outcome env' =
         if PkgVersion.lt (SiEPIC_version env') [0; 5; 4]%N
         then Raised (Exception
                        ["Errors";
                         "This example requires SiEPIC-Tools version 0.5.4 or greater."])
         else Done tt.
Proof.
  intros Hv. change [0; 5; 4]%N with min_version in Hv.
  split; [|split; [|split; [|split]]];
    try (settle_guard Hv; by_cases_on_mode; reflexivity).
  intros env'. exact (outcome_with_eq export_type env').
Qed.

Lemma version_guard_only_check_witness :
  outcome env_old =
    Raised (Exception
              ["Errors";
               "This example requires SiEPIC-Tools version 0.5.4 or greater."])
  /\ existsb creates_layout (trace env_old) = false
  /\ new_layouts (trace env_old) = []
  /\ instances (trace env_old) = []
  /\ forall env' : Env,
       outcome env' =
         if PkgVersion.lt (SiEPIC_version env') [0; 5; 4]%N
         then Raised (Exception
                        ["Errors";
                         "This example requires SiEPIC-Tools version 0.5.4 or greater."])
         else Done tt.
Proof. apply (version_guard_only_check env_old). reflexivity. Defined.

(** C2. Past the version guard, exactly two waveguides are routed, both
    between the two Y-branch instances and crossed: from [opt2] of the first
    to [opt3] of the second, and from [opt3] of the first to [opt2] of the
    second; each names a waveguide-type preset and gives a [turtle_B]
    hint. *)
Theorem crossed_waveguide_pair (env : Env) :
  compatible env ->
  exists y1 y2 : Inst,
    instances_of "ebeam_YBranch_te1310" (trace env) = [y1; y2]
    /\ y1 <> y2
    /\ waveguides (trace env) =
         [(y1, "opt2", y2, "opt3", waveguide_type2, Some [60; -90]);
          (y1, "opt3", y2, "opt2", waveguide_type2, Some [110; -90])].
Proof.
  intros Hv. exists (InstH 3), (InstH 5).
  settle_guard Hv. by_cases_on_mode;
    (split; [reflexivity | split; [discriminate | reflexivity]]).
Qed.

Lemma crossed_waveguide_pair_witness :
  exists y1 y2 : Inst,
    instances_of "ebeam_YBranch_te1310" (trace env_script) = [y1; y2]
    /\ y1 <> y2
    /\ waveguides (trace env_script) =
         [(y1, "opt2", y2, "opt3", waveguide_type2, Some [60; -90]);
          (y1, "opt3", y2, "opt2", waveguide_type2, Some [110; -90])].
Proof. apply (crossed_waveguide_pair env_script). reflexivity. Defined.

(** C3. Past the version guard, the connections made by pin name are, in
    order: first grating coupler [opt1] to a taper's [opt1], that taper's
    [opt2] to a Y-branch's [opt1]; then the same from the second grating
    coupler, with a taper and a Y-branch of its own. *)
Theorem arms_chain (env : Env) :
  compatible env ->
  exists (gc1 gc2 taper1 taper2 y1 y2 : Inst) (cell_taper cell_y : Cell),
    instances_of "ebeam_GC_SiN_TE_1310_8deg" (trace env) = [gc1; gc2]
    /\ cell_name cell_taper = "taper_bezier"
    /\ cell_name cell_y = "ebeam_YBranch_te1310"
    /\ NoDup [gc1; gc2; taper1; taper2; y1; y2]
    /\ connections (trace env) =
         [(gc1, "opt1", cell_taper, "opt1", taper1);
          (taper1, "opt2", cell_y, "opt1", y1);
          (gc2, "opt1", cell_taper, "opt1", taper2);
          (taper2, "opt2", cell_y, "opt1", y2)].
Proof.
  intros Hv.
  exists (InstH 0), (InstH 1), (InstH 2), (InstH 4), (InstH 3), (InstH 5).
  exists cell_ebeam_taper, cell_ebeam_y.
  settle_guard Hv. by_cases_on_mode;
    (split; [reflexivity|]; split; [reflexivity|]; split; [reflexivity|];
     split; [distinct_handles | reflexivity]).
Qed.

Lemma arms_chain_witness :
  exists (gc1 gc2 taper1 taper2 y1 y2 : Inst) (cell_taper cell_y : Cell),
    instances_of "ebeam_GC_SiN_TE_1310_8deg" (trace env_script) = [gc1; gc2]
    /\ cell_name cell_taper = "taper_bezier"
    /\ cell_name cell_y = "ebeam_YBranch_te1310"
    /\ NoDup [gc1; gc2; taper1; taper2; y1; y2]
    /\ connections (trace env_script) =
         [(gc1, "opt1", cell_taper, "opt1", taper1);
          (taper1, "opt2", cell_y, "opt1", y1);
          (gc2, "opt1", cell_taper, "opt1", taper2);
          (taper2, "opt2", cell_y, "opt1", y2)].
Proof. apply (arms_chain env_script). reflexivity. Defined.

(** C4. Past the version guard, exactly two instances of the grating
    coupler are made, both inserted into the top cell with rotation [R0] at
    x = 60000, the second 127000 database units above the first. *)
Theorem two_grating_couplers (env : Env) :
  compatible env ->
  exists (gc : Cell) (i1 i2 : Inst) (top : string),
    new_layouts (trace env) = [(tech_name, top)]
    /\ cell_name gc = "ebeam_GC_SiN_TE_1310_8deg"
    /\ i1 <> i2
    /\ instances_of "ebeam_GC_SiN_TE_1310_8deg" (trace env) = [i1; i2]
    /\ inserts (trace env) =
         [(TopCell top, gc, mkTrans R0 60000 16000, i1);
          (TopCell top, gc, mkTrans R0 60000 (16000 + 127000), i2)].
Proof.
  intros Hv.
  exists cell_ebeam_gc.
  exists (InstH 0), (InstH 1), "EBeam_LukasChrostowski_MZI".
  settle_guard Hv. by_cases_on_mode;
    (split; [reflexivity|]; split; [reflexivity|]; split; [discriminate|];
     split; reflexivity).
Qed.

Lemma two_grating_couplers_witness :
  exists (gc : Cell) (i1 i2 : Inst) (top : string),
    new_layouts (trace env_script) = [(tech_name, top)]
    /\ cell_name gc = "ebeam_GC_SiN_TE_1310_8deg"
    /\ i1 <> i2
    /\ instances_of "ebeam_GC_SiN_TE_1310_8deg" (trace env_script) = [i1; i2]
    /\ inserts (trace env_script) =
         [(TopCell top, gc, mkTrans R0 60000 16000, i1);
          (TopCell top, gc, mkTrans R0 60000 (16000 + 127000), i2)].
Proof. apply (two_grating_couplers env_script). reflexivity. Defined.

(** C5. Past the version guard, the script makes one layout with one top
    cell, named by filling the designer name into ['EBeam_%s_MZI'], that
    is [EBeam_LukasChrostowski_MZI]; draws one floor plan on it, 605000 by
    410000; and every library cell it loads is instantiated, so that the
    top cell stays the only one without a parent. *)
Theorem one_top_cell (env : Env) :
  compatible env ->
  percent_s "EBeam_%s_MZI" designer_name = Some "EBeam_LukasChrostowski_MZI"
  /\ new_layouts (trace env) = [("EBeam", "EBeam_LukasChrostowski_MZI")]
  /\ floorplans (trace env) =
       [(TopCell "EBeam_LukasChrostowski_MZI", 605000, 410000)]
  /\ (forall c, In c (created (trace env)) ->
                In c (map fst (instances (trace env)))).
Proof.
  intros Hv.
  assert (Hc : created (trace env) =
               [cell_ebeam_gc; cell_ebeam_y; cell_ebeam_taper])
    by (settle_guard Hv; by_cases_on_mode; reflexivity).
  assert (Hi : map fst (instances (trace env)) =
               [cell_ebeam_gc; cell_ebeam_gc; cell_ebeam_taper; cell_ebeam_y;
                cell_ebeam_taper; cell_ebeam_y])
    by (settle_guard Hv; by_cases_on_mode; reflexivity).
  split; [reflexivity|].
  split; [settle_guard Hv; by_cases_on_mode; reflexivity|].
  split; [settle_guard Hv; by_cases_on_mode; reflexivity|].
  intros c Hin. rewrite Hc in Hin. rewrite Hi.
  simpl in *. intuition.
Qed.

Lemma one_top_cell_witness :
  percent_s "EBeam_%s_MZI" designer_name = Some "EBeam_LukasChrostowski_MZI"
  /\ new_layouts (trace env_script) = [("EBeam", "EBeam_LukasChrostowski_MZI")]
  /\ floorplans (trace env_script) =
       [(TopCell "EBeam_LukasChrostowski_MZI", 605000, 410000)]
  /\ (forall c, In c (created (trace env_script)) ->
                In c (map fst (instances (trace env_script)))).
Proof. apply (one_top_cell env_script). reflexivity. Defined.

(** C6. Past the version guard, exactly one text label is inserted; it
    reads [opt_in_TE_1310_device_LukasChrostowski_MZI1], the designer name
    filled into the pattern, and it carries the transformation of the
    second grating-coupler instance, which differs from the first's. *)
Theorem one_test_label (env : Env) :
  compatible env ->
  percent_s "opt_in_TE_1310_device_%s_MZI1" designer_name =
    Some "opt_in_TE_1310_device_LukasChrostowski_MZI1"
  /\ exists (top : Cell) (t1 t2 : Trans) (i1 i2 : Inst),
       inserts (trace env) =
         [(top, cell_ebeam_gc, t1, i1); (top, cell_ebeam_gc, t2, i2)]
       /\ t1 <> t2
       /\ texts (trace env) =
            [(top, "Text", "opt_in_TE_1310_device_LukasChrostowski_MZI1", t2)].
Proof.
  intros Hv. split; [reflexivity|].
  exists (TopCell "EBeam_LukasChrostowski_MZI").
  exists (mkTrans R0 60000 16000), (mkTrans R0 60000 143000).
  exists (InstH 0), (InstH 1).
  settle_guard Hv. by_cases_on_mode;
    (split; [reflexivity | split; [discriminate | reflexivity]]).
Qed.

Lemma one_test_label_witness :
  percent_s "opt_in_TE_1310_device_%s_MZI1" designer_name =
    Some "opt_in_TE_1310_device_LukasChrostowski_MZI1"
  /\ exists (top : Cell) (t1 t2 : Trans) (i1 i2 : Inst),
       inserts (trace env_script) =
         [(top, cell_ebeam_gc, t1, i1); (top, cell_ebeam_gc, t2, i2)]
       /\ t1 <> t2
       /\ texts (trace env_script) =
            [(top, "Text", "opt_in_TE_1310_device_LukasChrostowski_MZI1", t2)].
Proof. apply (one_test_label env_script). reflexivity. Defined.

(** C7. Past the version guard, the value of [export_type] selects the
    export: ['static'] (the value the script sets) calls [export_layout]
    once, with format ['oas'], a screenshot, the script's directory, the
    relative path ['..'] and the script's name without extension, and
    writes nothing itself; any other value calls [ly.write] once and
    [export_layout] never.  Both name the same file, which lies in
    [<script directory>/..] and is called [<script name>.oas]. *)
Theorem export_by_flag (et : string) (env : Env) :
  compatible env ->
  export_type = "static"
  /\ exports (trace_with et env) =
       (if String.eqb et "static"
        then [(TopCell "EBeam_LukasChrostowski_MZI",
               script_dir env, script_stem env, "..", "oas", true)]
        else [])
  /\ writes (trace_with et env) =
       (if String.eqb et "static" then [] else [target_file env])
  /\ siepic_export_path (script_dir env) (script_stem env) ".." "oas" =
       target_file env
  /\ dirname (target_file env) = join (script_dir env) [".."]
  /\ basename (target_file env) = script_stem env ++ ".oas".
Proof.
  intros Hv. split; [reflexivity|].
  split; [settle_guard Hv; by_cases_on_export; by_cases_on_mode; reflexivity|].
  split; [settle_guard Hv; by_cases_on_export; by_cases_on_mode; reflexivity|].
  split; [reflexivity|].
  apply target_file_split.
Qed.

Lemma export_by_flag_witness :
  export_type = "static"
  /\ exports (trace_with "PCell" env_script) =
       (if String.eqb "PCell" "static"
        then [(TopCell "EBeam_LukasChrostowski_MZI",
               script_dir env_script, script_stem env_script, "..", "oas",
               true)]
        else [])
  /\ writes (trace_with "PCell" env_script) =
       (if String.eqb "PCell" "static" then [] else [target_file env_script])
  /\ siepic_export_path (script_dir env_script) (script_stem env_script)
                        ".." "oas" =
       target_file env_script
  /\ dirname (target_file env_script) = join (script_dir env_script) [".."]
  /\ basename (target_file env_script) = script_stem env_script ++ ".oas".
Proof. apply (export_by_flag "PCell" env_script). reflexivity. Defined.



(** C9. The branch of lines 100-131 stands under the condition [0], which
    is false.  Were it run, it would load the [spiral_paperclip] cell and
    then stop with [NameError] at [cell_ebeam_y_dream]; no run of the
    script, in any environment, makes a call of that branch or raises a
    [NameError]. *)
Theorem alternate_branch_dead :
  truthy 0 = false
  /\ (forall (ly : LayoutH) (cell gc : Cell) (dbu : Dbu) (w : World),
        fst (alternate_mzi ly cell gc dbu w) =
          Raised (NameError "cell_ebeam_y_dream")
        /\ existsb alternate_only
                   (calls (snd (alternate_mzi ly cell gc dbu w))) = true)
  /\ (forall (et : string) (env : Env),
        (forall name, outcome_with et env <> Raised (NameError name))
        /\ existsb alternate_only (trace_with et env) = false).
Proof.
  split; [reflexivity|]. split.
  - intros ly cell gc dbu w. split; [reflexivity|].
    cbv [alternate_mzi bind create_cell call insert new_inst insert_text ret
         percent percent_s designer_name undefined raise snd calls next_inst].
    cbn [append snd calls].
    rewrite !existsb_app. simpl. now rewrite !orb_true_r.
  - intros et env. split.
    + intros name. rewrite outcome_with_eq.
      destruct (PkgVersion.lt _ _); discriminate.
    + destruct (PkgVersion.lt (SiEPIC_version env) min_version) eqn:Hv;
        settle_guard Hv; by_cases_on_mode; by_cases_on_export; reflexivity.
Qed.

(** C10. Past the version guard, both routes are drawn with the preset
    ['SiN Strip TE 1310 nm, w=800 nm']; no call names the 750 nm preset;
    and the two [turtle_B] hints are [[60, -90]] and [[110, -90]], equal in
    the second component and 50 apart in the first. *)
Theorem same_preset_hints_differ (env : Env) :
  compatible env ->
  waveguide_type1 = "SiN Strip TE 1310 nm, w=750 nm"
  /\ map route_preset (waveguides (trace env)) =
       ["SiN Strip TE 1310 nm, w=800 nm"; "SiN Strip TE 1310 nm, w=800 nm"]
  /\ existsb (uses_preset waveguide_type1) (trace env) = false
  /\ exists a b c d : Z,
       map route_hint (waveguides (trace env)) = [Some [a; b]; Some [c; d]]
       /\ a = 60 /\ b = -90 /\ c = 110 /\ d = b /\ c - a = 50.
Proof.
  intros Hv. split; [reflexivity|].
  split; [settle_guard Hv; by_cases_on_mode; reflexivity|].
  split; [settle_guard Hv; by_cases_on_mode; reflexivity|].
  exists 60, (-90), 110, (-90).
  settle_guard Hv. by_cases_on_mode; repeat split; reflexivity.
Qed.

Lemma same_preset_hints_differ_witness :
  waveguide_type1 = "SiN Strip TE 1310 nm, w=750 nm"
  /\ map route_preset (waveguides (trace env_script)) =
       ["SiN Strip TE 1310 nm, w=800 nm"; "SiN Strip TE 1310 nm, w=800 nm"]
  /\ existsb (uses_preset waveguide_type1) (trace env_script) = false
  /\ exists a b c d : Z,
       map route_hint (waveguides (trace env_script)) =
         [Some [a; b]; Some [c; d]]
       /\ a = 60 /\ b = -90 /\ c = 110 /\ d = b /\ c - a = 50.
Proof. apply (same_preset_hints_differ env_script). reflexivity. Defined.

End Props.

(* ------------------------------------------------------------------ *)
(** ** More on the version guard (lines 48-50) *)

Module GuardFacts.
Import PkgVersion Layout Script Props.

(** Being below is kept when the left side is replaced by something not
    above it. *)
Lemma tuple_lt_le_trans (w v m : list N) :
  tuple_lt w v = false -> tuple_lt w m = true -> tuple_lt v m = true.
Proof.
  revert v m. induction w as [|x w IH]; intros [|z v] [|y m]; simpl;
    trivial; try discriminate.
  destruct (N.ltb_spec x z); [discriminate|].
  destruct (N.ltb_spec z x); destruct (N.ltb_spec x y);
    destruct (N.ltb_spec y x); destruct (N.ltb_spec z y);
    destruct (N.ltb_spec y z); trivial; try discriminate; try lia.
  apply IH.
Qed.

(** The release [0.5.4] read as major, minor and patch numbers, missing
    numbers counting as zero. *)
Definition below_0_5_4 (v : Version) : bool :=
  let major := nth 0 v 0%N in
  let minor := nth 1 v 0%N in
  let patch := nth 2 v 0%N in
  (major =? 0)%N
  && ((minor <? 5)%N || ((minor =? 5)%N && (patch <? 4)%N)).

Ltac order_cases :=
  repeat match goal with
         | |- context [(?a <? ?b)%N] => destruct (N.ltb_spec a b)
         | |- context [(?a =? ?b)%N] => destruct (N.eqb_spec a b)
         end; simpl; trivial; try lia.

Lemma lt_min_version (v : Version) : lt v min_version = below_0_5_4 v.
Proof.
  change min_version with [0; 5; 4]%N.
  unfold lt, below_0_5_4.
  change (strip_trailing_zeros [0; 5; 4]%N) with [0; 5; 4]%N.
  destruct v as [|x [|y [|z r]]]; cbn [strip_trailing_zeros nth].
  - reflexivity.
  - order_cases; subst; simpl; order_cases.
  - order_cases; subst; simpl; order_cases.
  - destruct (strip_trailing_zeros r) as [|r0 r'];
      order_cases; subst; simpl; order_cases.
Qed.

End GuardFacts.

(* ------------------------------------------------------------------ *)
(** ** More on the strings and paths of lines 25, 86 and 137-148 *)

Module NamingFacts.
Import PyStr PosixPath StrFacts PathFacts.

Lemma upto_from (n : nat) (s : string) : upto n s ++ from n s = s.
Proof.
  revert s. induction n as [|n IH]; intros [|a r]; simpl; trivial.
  now rewrite IH.
Qed.

Lemma append_assoc (a b c : string) : (a ++ b) ++ c = a ++ (b ++ c).
Proof. induction a as [|x a IH]; simpl; [reflexivity|now rewrite IH]. Qed.

(** Where [rfind] finds the character, the character is. *)
Lemma rfind_hits (c : ascii) (s : string) :
  0 <= rfind c s -> startswith c (from (Z.to_nat (rfind c s)) s) = true.
Proof.
  induction s as [|a r IH]; simpl; [lia|].
  destruct (0 <=? rfind c r) eqn:E.
  - apply Z.leb_le in E. intros _.
    replace (Z.to_nat (rfind c r + 1)) with (S (Z.to_nat (rfind c r))) by lia.
    simpl. exact (IH E).
  - destruct (Ascii.eqb a c) eqn:Ea; simpl; [now rewrite Ea|lia].
Qed.

Lemma percent_s_other (a : ascii) (r arg : string) :
  Ascii.eqb a "%" = false ->
  percent_s (String a r) arg =
    match percent_s r arg with
    | Some t => Some (String a t)
    | None => None
    end.
Proof.
  destruct a as [[] [] [] [] [] [] [] []]; intros H;
    try reflexivity; discriminate H.
Qed.

Lemma percent_s_none (fmt arg : string) :
  lacks "%" fmt = true -> percent_s fmt arg = None.
Proof.
  induction fmt as [|a r IH]; [reflexivity|].
  cbn [lacks]. intros H. apply andb_prop in H. destruct H as [Ha Hr].
  apply negb_true_iff in Ha.
  now rewrite (percent_s_other _ _ _ Ha), (IH Hr).
Qed.

Lemma percent_s_some (pre post arg : string) :
  lacks "%" pre = true ->
  percent_s (pre ++ "%s" ++ post) arg = Some (pre ++ arg ++ post).
Proof.
  change ("%s" ++ post) with (String "%" (String "s" post)).
  induction pre as [|a r IH]; [reflexivity|].
  cbn [lacks]. intros H. apply andb_prop in H. destruct H as [Ha Hr].
  apply negb_true_iff in Ha.
  change (String a r ++ String "%" (String "s" post))
    with (String a (r ++ String "%" (String "s" post))).
  now rewrite (percent_s_other _ _ _ Ha), (IH Hr).
Qed.

(** Joining a directory that does not end in a slash with a relative
    name puts one slash between them. *)
Lemma join_step_plain (d f : string) :
  is_empty d = false ->
  endswith sep d = false ->
  startswith sep f = false ->
  join_step d f = d ++ String sep f.
Proof. unfold join_step. now intros -> -> ->. Qed.

(** A file name [name.ext] splits at its last dot when its first
    character is not a dot. *)
Lemma splitext_name_ext (name ext : string) :
  name <> EmptyString ->
  startswith extsep name = false ->
  lacks sep name = true ->
  lacks sep ext = true ->
  lacks extsep ext = true ->
  splitext (name ++ String extsep ext) = (name, String extsep ext).
Proof.
  intros Hne Hdot Hsn Hse Hde. unfold splitext.
  assert (Hs : lacks sep (name ++ String extsep ext) = true).
  { rewrite lacks_app, Hsn. simpl. exact Hse. }
  rewrite (rfind_lacks _ _ Hs), (rfind_app_char _ _ _ Hde).
  replace (Z.to_nat (-1 + 1)) with 0%nat by lia.
  replace (Z.to_nat (Z.of_nat (String.length name) - (-1 + 1)))
    with (String.length name) by lia.
  rewrite Nat2Z.id.
  destruct name as [|a r]; [congruence|].
  simpl in Hdot.
  assert (Hgo : skip_leading_dots (String a r ++ String extsep ext) 0
                  (String.length (String a r)) = true).
  { simpl. unfold at_. simpl.
    replace (upto 0 (r ++ String extsep ext)) with EmptyString
      by (destruct (r ++ String extsep ext); reflexivity).
    unfold String.eqb. rewrite Hdot. reflexivity. }
  rewrite Hgo.
  replace (-1 <? Z.of_nat (String.length (String a r))) with true
    by (symmetry; apply Z.ltb_lt; lia).
  cbn [andb].
  now rewrite upto_app, from_app.
Qed.

End NamingFacts.

(* ------------------------------------------------------------------ *)
(** ** Further properties of the script *)

Module Extra.
Import PyStr PosixPath Layout Script Props.
Import StrFacts PathFacts NamingFacts GuardFacts.

(** *** More ways to read a trace *)

Definition prints : list Event -> list string :=
  pick (fun e => match e with
                 | EPrint line => Some line
                 | _ => None end).

Definition is_zoom (e : Event) : bool :=
  match e with EZoomOut _ => true | _ => false end.

Definition is_new_layout (e : Event) : bool :=
  match e with ENewLayout _ _ _ _ => true | _ => false end.

Definition is_import_of (module : string) (e : Event) : bool :=
  match e with EImport m => String.eqb m module | _ => false end.

Definition import_or_print (e : Event) : bool :=
  match e with EImport _ | EPrint _ => true | _ => false end.

(** Calls that write a file, check the layout or open the viewer. *)
Definition delivers (e : Event) : bool :=
  is_export e || is_check e || is_show e.

(** A second environment, with a later SiEPIC than [env_script]. *)
Definition env_newer : Env :=
  mkEnv "KLayout_GUI" [0; 6; 0]%N
        "EBeam_LukasChrostowski_MZI_1310.py"
        "/home/user/KLayout Python/EBeam_LukasChrostowski_MZI_1310.py"
        (mkDbu 1 1000) siepic_export_path 2.

(** *** The version guard *)

(** X1. The guard refuses exactly the releases whose major number is 0 and
    whose minor and patch numbers are below 5.4, numbers left out counting
    as zero: a run ends with the version exception for those and normally
    for all others. *)
Theorem guard_refuses_exactly (et : string) (env : Env) :
  outcome_with et env =
    if below_0_5_4 (SiEPIC_version env)
    then Raised version_error
    else Done tt.
Proof. rewrite outcome_with_eq, lt_min_version. reflexivity. Qed.

(** X2. A SiEPIC that is not older than one the script accepts is accepted
    too. *)
Theorem newer_version_passes (env env' : Env) :
  compatible env ->
  PkgVersion.lt (SiEPIC_version env') (SiEPIC_version env) = false ->
  compatible env' /\ outcome env' = Done tt.
Proof.
  unfold compatible. intros Hv Hle.
  assert (Hv' : PkgVersion.lt (SiEPIC_version env') min_version = false).
  { destruct (PkgVersion.lt (SiEPIC_version env') min_version) eqn:E;
      [|reflexivity].
    unfold PkgVersion.lt in *.
    rewrite (tuple_lt_le_trans _ _ _ Hle E) in Hv. discriminate. }
  split; [exact Hv'|].
  unfold outcome, run, script.
  change (outcome_with export_type env' = Done tt).
  now rewrite outcome_with_eq, Hv'.
Qed.

Lemma newer_version_passes_witness :
  compatible env_newer /\ outcome env_newer = Done tt.
Proof.
  apply (newer_version_passes env_script env_newer); reflexivity.
Defined.

(** *** Names and paths *)

(** X3. [splitext] cuts a path in two without losing a character, and the
    extension it cuts off is empty or begins with a dot; so the script's
    base name is its stem followed by such an extension. *)
Theorem splitext_rejoins (p : string) :
  fst (splitext p) ++ snd (splitext p) = p
  /\ (snd (splitext p) = EmptyString
      \/ startswith extsep (snd (splitext p)) = true).
Proof.
  unfold splitext.
  destruct (rfind sep p <? rfind extsep p) eqn:E; cbn [andb].
  - destruct (skip_leading_dots _ _ _); cbn [fst snd].
    + split; [apply upto_from|]. right. apply rfind_hits.
      apply Z.ltb_lt in E. pose proof (rfind_lower sep p). lia.
    + split; [apply append_empty_r|now left].
  - cbn [fst snd]. split; [apply append_empty_r|now left].
Qed.

(** X4. For a script stored as [dir/name.ext] (the directory not ending in
    a slash, the name not beginning with a dot, no dot in the extension),
    the script's directory is [dir], its stem is [name], the geometry file
    is [dir/../name.oas] and the report file is [dir/name.lyrdb]. *)
Theorem outputs_named_after_script (env : Env) (dir name ext : string) :
  is_empty dir = false ->
  endswith sep dir = false ->
  is_empty name = false ->
  startswith extsep name = false ->
  lacks sep name = true ->
  lacks sep ext = true ->
  lacks extsep ext = true ->
  realpath_file env = dir ++ "/" ++ name ++ "." ++ ext ->
  basename (file_ env) = name ++ "." ++ ext ->
  script_dir env = dir
  /\ script_stem env = name
  /\ target_file env = dir ++ "/../" ++ name ++ ".oas"
  /\ report_file env = dir ++ "/" ++ name ++ ".lyrdb".
Proof.
  intros Hd He Hn Hdot Hsn Hse Hde Hreal Hbase.
  assert (Hd' : dir <> EmptyString) by (destruct dir; [discriminate|congruence]).
  assert (Hn' : name <> EmptyString) by (destruct name; [discriminate|congruence]).
  assert (Hdir : script_dir env = dir).
  { unfold script_dir. rewrite Hreal.
    change (dir ++ "/" ++ name ++ "." ++ ext)
      with (dir ++ String sep (name ++ String extsep ext)).
    assert (Hf : lacks sep (name ++ String extsep ext) = true).
    { rewrite lacks_app, Hsn. simpl. exact Hse. }
    destruct (split_at_last_sep dir _ Hf) as [_ ->].
    destruct (all_char sep dir) eqn:Ha.
    - rewrite (all_char_endswith _ _ Ha Hd') in He. discriminate.
    - now apply rstrip_fixed. }
  assert (Hstem : script_stem env = name).
  { unfold script_stem. rewrite Hbase.
    change (name ++ "." ++ ext) with (name ++ String extsep ext).
    now rewrite splitext_name_ext. }
  split; [exact Hdir|]. split; [exact Hstem|].
  unfold target_file, report_file, join. cbn [fold_left].
  rewrite Hdir, Hstem.
  assert (Hoas : startswith sep (name ++ ".oas") = false).
  { apply startswith_lacks. rewrite lacks_app, Hsn. reflexivity. }
  assert (Hrdb : startswith sep (name ++ ".lyrdb") = false).
  { apply startswith_lacks. rewrite lacks_app, Hsn. reflexivity. }
  rewrite (join_step_plain dir ".." Hd He eq_refl).
  rewrite (join_step_plain dir _ Hd He Hrdb).
  rewrite join_step_plain; trivial.
  - split; [|reflexivity]. now rewrite append_assoc.
  - destruct dir; reflexivity.
  - now rewrite endswith_app.
Qed.

Lemma outputs_named_after_script_witness :
  script_dir env_script = "/home/user/openEBL/submissions/KLayout Python"
  /\ script_stem env_script = "EBeam_LukasChrostowski_MZI_1310"
  /\ target_file env_script =
       "/home/user/openEBL/submissions/KLayout Python"
       ++ "/../" ++ "EBeam_LukasChrostowski_MZI_1310" ++ ".oas"
  /\ report_file env_script =
       "/home/user/openEBL/submissions/KLayout Python"
       ++ "/" ++ "EBeam_LukasChrostowski_MZI_1310" ++ ".lyrdb".
Proof.
  apply (outputs_named_after_script env_script
           "/home/user/openEBL/submissions/KLayout Python"
           "EBeam_LukasChrostowski_MZI_1310" "py"); reflexivity.
Defined.

(** X5. With a format that has one [%s] and no other percent sign, the [%]
    operator puts the argument in the place of the [%s] and keeps the text
    around it; with no [%s] to take the argument it fails. *)
Theorem percent_fills_template (pre post arg : string) :
  lacks "%" pre = true ->
  lacks "%" post = true ->
  percent_s (pre ++ "%s" ++ post) arg = Some (pre ++ arg ++ post)
  /\ percent_s (pre ++ post) arg = None.
Proof.
  intros Hpre Hpost. split; [now apply percent_s_some|].
  apply percent_s_none. now rewrite lacks_app, Hpre, Hpost.
Qed.

Lemma percent_fills_template_witness :
  percent_s ("EBeam_" ++ "%s" ++ "_MZI") "LukasChrostowski" =
    Some ("EBeam_" ++ "LukasChrostowski" ++ "_MZI")
  /\ percent_s ("EBeam_" ++ "_MZI") "LukasChrostowski" = None.
Proof.
  apply (percent_fills_template "EBeam_" "_MZI" "LukasChrostowski");
    reflexivity.
Defined.

(** *** What a run leaves behind *)

(** X6. A run that the version guard refuses has done nothing but import
    modules and print the banner line: no file is written, nothing is
    checked, no viewer is opened and no instance is made. *)
Theorem refused_run_leaves_nothing (et : string) (env : Env) :
  PkgVersion.lt (SiEPIC_version env) min_version = true ->
  forallb import_or_print (trace_with et env) = true
  /\ existsb delivers (trace_with et env) = false
  /\ prints (trace_with et env) = ["EBeam_LukasChrostowski_MZI layout script"]
  /\ next_inst (snd (run_with et env)) = 0%nat.
Proof.
  intros Hv. settle_guard Hv. by_cases_on_mode; repeat split; reflexivity.
Qed.

Lemma refused_run_leaves_nothing_witness :
  forallb import_or_print (trace_with export_type env_old) = true
  /\ existsb delivers (trace_with export_type env_old) = false
  /\ prints (trace_with export_type env_old) =
       ["EBeam_LukasChrostowski_MZI layout script"]
  /\ next_inst (snd (run_with export_type env_old)) = 0%nat.
Proof.
  apply (refused_run_leaves_nothing export_type env_old). reflexivity.
Defined.

(** X7. What a run prints: the banner line, and after it, when the version
    guard lets the run go on, one line made of ['Number of errors: '] and
    of the plain numeral (a minus sign if negative, then digits with no
    zero in front) that reads back as the integer [layout_check] returned;
    nothing else, in any environment. *)
Theorem console_output (et : string) (env : Env) :
  exists digits : string,
    plain_int digits = true
    /\ int_of_str digits = Some (layout_check_ret env)
    /\ prints (trace_with et env) =
         "EBeam_LukasChrostowski_MZI layout script"
         :: (if PkgVersion.lt (SiEPIC_version env) min_version
             then []
             else [("Number of errors: " ++ digits)%string]).
Proof.
  exists (str_of_Z (layout_check_ret env) ++ "")%string.
  split; [rewrite append_empty_r; apply plain_int_str_of_Z|]. split.
  - rewrite append_empty_r. apply int_of_str_of_Z.
  - destruct (PkgVersion.lt (SiEPIC_version env) min_version) eqn:Hv;
      settle_guard Hv; by_cases_on_mode; by_cases_on_export; reflexivity.
Qed.

(** X8. A run past the version guard has two parts, divided by the call of
    [zoom_out]: before it no file is written, nothing is checked and no
    viewer is opened; from it on no call makes or changes anything in the
    layout.  So what is checked and shown is the layout that was
    exported. *)
Theorem build_then_deliver (et : string) (env : Env) :
  compatible env ->
  existsb is_zoom (trace_with et env) = true
  /\ existsb delivers (before is_zoom (trace_with et env)) = false
  /\ existsb creates_layout (since is_zoom (trace_with et env)) = false.
Proof.
  intros Hv. settle_guard Hv.
  by_cases_on_mode; by_cases_on_export; repeat split; reflexivity.
Qed.

Lemma build_then_deliver_witness :
  existsb is_zoom (trace_with export_type env_script) = true
  /\ existsb delivers (before is_zoom (trace_with export_type env_script))
     = false
  /\ existsb creates_layout (since is_zoom (trace_with export_type env_script))
     = false.
Proof. apply (build_then_deliver export_type env_script). reflexivity. Defined.

(** X9. The PDK package is imported exactly when [Python_Env] is
    ['Script'], and never once the layout exists; the viewer is opened
    exactly when [Python_Env] is ['Script'] and the version guard has let
    the run go on. *)
Theorem pdk_import_and_viewer (et : string) (env : Env) :
  existsb (is_import_of "siepic_ebeam_pdk") (trace_with et env) =
    String.eqb (Python_Env env) "Script"
  /\ existsb (is_import_of "siepic_ebeam_pdk")
             (since is_new_layout (trace_with et env)) = false
  /\ existsb is_show (trace_with et env) =
       String.eqb (Python_Env env) "Script"
       && negb (PkgVersion.lt (SiEPIC_version env) min_version).
Proof.
  destruct (PkgVersion.lt (SiEPIC_version env) min_version) eqn:Hv;
    settle_guard Hv; by_cases_on_mode; by_cases_on_export;
    repeat split; reflexivity.
Qed.

(** X12. What the branch of lines 100-131 does when it is run, from any
    state: it loads the spiral cell, inserts two more grating couplers at
    (60000, 205000) and 127000 above, inserts the label of the third MZI at
    the second of them, and stops there with the [NameError]; it connects
    and routes nothing. *)
Theorem alternate_branch_effect
        (ly : LayoutH) (cell gc : Cell) (dbu : Dbu) (w : World) :
  fst (alternate_mzi ly cell gc dbu w) = Raised (NameError "cell_ebeam_y_dream")
  /\ calls (snd (alternate_mzi ly cell gc dbu w)) =
       (calls w
        ++ [ECreateCell ly
              (LibCell "spiral_paperclip" "EBeam_Beta"
                 (Some [("waveguide_type",
                         VStr "SiN routing TE 1550 nm (compound waveguide)");
                        ("length", VInt 200);
                        ("flatten", VBool true)]));
            EInsert cell gc (mkTrans R0 60000 205000) (InstH (next_inst w));
            EInsert cell gc (mkTrans R0 60000 332000)
                    (InstH (S (next_inst w)));
            EText cell "Text" "opt_in_TE_1550_device_LukasChrostowski_MZI3"
                  (mkTrans R0 60000 332000) (div_dbu 5 dbu)])%list
  /\ next_inst (snd (alternate_mzi ly cell gc dbu w)) = S (S (next_inst w)).
Proof.
  split; [reflexivity|]. split; [|reflexivity].
  cbv [alternate_mzi bind create_cell call insert new_inst insert_text ret
       percent undefined raise snd calls next_inst].
  cbn [percent_s designer_name append snd calls].
  rewrite <- !app_assoc. reflexivity.
Qed.

End Extra.
